(** * bn-riscv: the architecture binding [riscv.py]

    A shallow embedding of [riscv.py], the module that registers the RISC-V
    architecture with the host analysis framework: the three mnemonic
    classification sets, the register table of the two variants, and the
    three host queries [get_instruction_info], [get_instruction_text] and
    [get_instruction_low_level_il].

    Python integers are unbounded, so addresses, sizes and immediates are
    [Z]; Python sets are [gset string]; the register dictionary is a
    [gmap string RegisterInfo.t]; [None] results are [option]. *)

From Stdlib Require Import ZArith Strings.Byte.
From stdpp Require Import base decidable option list strings pretty gmap.

Local Open Scope Z_scope.

(** ** Host framework types (binaryninja)

    Only the parts of the host API that [riscv.py] touches are modelled. *)

(** [binaryninja.BranchType]. *)
Inductive BranchType : Type :=
  | UnconditionalBranch
  | FalseBranch
  | TrueBranch
  | CallDestination
  | FunctionReturn
  | SystemCall
  | IndirectBranch
  | ExceptionBranch
  | UnresolvedBranch
  | UserDefinedBranch.

#[global] Instance BranchType_eq_dec : EqDecision BranchType.
Proof. solve_decision. Defined.

(** One entry of [InstructionInfo.branches]: the kind and the target the
    caller passed to [add_branch]; [None] when the call names no target. *)
Module InstructionBranch.
Record t : Type := mk { type : BranchType; target : option Z }.
End InstructionBranch.

#[global] Instance InstructionBranch_eq_dec : EqDecision InstructionBranch.t.
Proof. solve_decision. Defined.

(** [binaryninja.InstructionInfo]: a length and the branches added so far,
    in the order of the [add_branch] calls. *)
Module InstructionInfo.
Record t : Type := mk { length : Z; branches : list InstructionBranch.t }.

(** [InstructionInfo()] *)
Definition new : t := {| length := 0; branches := [] |}.

(** [result.length = n] *)
Definition set_length (result : t) (n : Z) : t :=
  {| length := n; branches := branches result |}.

(** [result.add_branch(kind)] and [result.add_branch(kind, target)] *)
Definition add_branch (result : t) (kind : BranchType) (target : option Z) : t :=
  {| length := length result;
     branches := branches result ++ [InstructionBranch.mk kind target] |}.
End InstructionInfo.

#[global] Instance InstructionInfo_eq_dec : EqDecision InstructionInfo.t.
Proof. solve_decision. Defined.

(** [binaryninja.RegisterInfo(full_width_reg, size)]. *)
Module RegisterInfo.
Record t : Type := mk { full_width_reg : string; size : Z }.
End RegisterInfo.

#[global] Instance RegisterInfo_eq_dec : EqDecision RegisterInfo.t.
Proof. solve_decision. Defined.

(** [binaryninja.Endianness]. *)
Inductive Endianness : Type := LittleEndian | BigEndian.

(** A display token produced by the renderer: its kind and its text. *)
Inductive InstructionTextTokenType : Type :=
  | TextToken
  | InstructionToken
  | OperandSeparatorToken
  | RegisterToken
  | IntegerToken
  | PossibleAddressToken
  | BeginMemoryOperandToken
  | EndMemoryOperandToken.

Module InstructionTextToken.
Record t : Type := mk { type : InstructionTextTokenType; text : string }.
End InstructionTextToken.

(** ** The instruction value ([instruction.py])

    [riscv.py] reads the attributes [name], [size] and [imm] of a decoded
    instruction, and adds [imm] to the address for every instruction; [imm]
    is an integer, 0 when the instruction has no immediate. *)

(** Modelled from the spec: the operand descriptors of an instruction
    ([instruction.py] is not part of the sources at hand): a register
    reference, an immediate value, or a memory reference made of a base
    register and a signed displacement. *)
Inductive Operand : Type :=
  | OpReg (r : string)
  | OpImm (v : Z)
  | OpMem (base : string) (disp : Z).

#[global] Instance Operand_eq_dec : EqDecision Operand.
Proof. solve_decision. Defined.

Module Instruction.
Record t : Type := mk {
  name : string;
  size : Z;
  imm : Z;
  operands : list Operand
}.

(** Two instructions that differ at most in their immediate. *)
Definition same_but_imm (i j : t) : Prop :=
  name i = name j /\ size i = size j /\ operands i = operands j.
End Instruction.

#[global] Instance Instruction_eq_dec : EqDecision Instruction.t.
Proof. solve_decision. Defined.

(** ** Module-level classification sets *)

Definition branch_ins : gset string :=
  list_to_set [
    "beq"; "bne"; "beqz"; "bnez"; "bge"; "bgeu"; "blt"; "bltu"; "blez"; "bgez";
    "bltz"; "bgtz"
  ].

Definition direct_call_ins : gset string := list_to_set ["jal"; "j"].
Definition indirect_call_ins : gset string := list_to_set ["jalr"; "jr"].

(** The four cases [get_instruction_info] tells apart, each with the test
    the method applies to the mnemonic. *)
Inductive Category : Type := Return | Branch | DirectTransfer | IndirectTransfer.

#[global] Instance Category_eq_dec : EqDecision Category.
Proof. solve_decision. Defined.

Definition in_category (c : Category) (mnemonic : string) : Prop :=
  match c with
  | Return => mnemonic = "ret"
  | Branch => mnemonic ∈ branch_ins
  | DirectTransfer => mnemonic ∈ direct_call_ins
  | IndirectTransfer => mnemonic ∈ indirect_call_ins
  end.

#[global] Instance in_category_dec c mnemonic : Decision (in_category c mnemonic).
Proof. destruct c; simpl; apply _. Defined.

(** The categories a mnemonic falls in. *)
Definition categories (mnemonic : string) : list Category :=
  filter (fun c => in_category c mnemonic)
    [Return; Branch; DirectTransfer; IndirectTransfer].

(** ** The collaborators constructed by the class bodies

    [RVDisassembler(address_size)] and [Lifter(address_size)] are objects
    that remember the address width they were built with. Their methods live
    in [instruction.py] and [lifter.py]; [riscv.py] only calls them, so the
    queries below take them as parameters. *)

Module RVDisassembler.
Record t : Type := mk { mode : Z }.
End RVDisassembler.

Module Lifter.
Record t : Type := mk { addr_size : Z }.
End Lifter.

(** A Python dict display [{k1: v1, k2: v2, ...}]: the items are inserted
    from left to right, a later item replacing an earlier one on the same
    key. *)
Definition dict {V : Type} (items : list (string * V)) : gmap string V :=
  foldl (fun m kv => <[kv.1 := kv.2]> m) ∅ items.

(** The attributes of an [Architecture] subclass that [riscv.py] sets. *)
Module Architecture.
Record t : Type := mk {
  name : string;
  address_size : Z;
  default_int_size : Z;
  max_instr_length : Z;
  endianness : Endianness;
  disassembler : RVDisassembler.t;
  lifter : Lifter.t;
  regs : gmap string RegisterInfo.t;
  stack_pointer : string
}.
End Architecture.

(** The ABI names of the general-purpose registers [x0] .. [x31], in the
    order in which the comments of [RISCV.regs] number them. *)
Definition gpr_names : list string :=
  [ "zero"; "ra"; "sp"; "gp"; "tp"; "t0"; "t1"; "t2"; "s0"; "s1";
    "a0"; "a1"; "a2"; "a3"; "a4"; "a5"; "a6"; "a7";
    "s2"; "s3"; "s4"; "s5"; "s6"; "s7"; "s8"; "s9"; "s10"; "s11";
    "t3"; "t4"; "t5"; "t6" ].

(** ** [class RISCV(Architecture)] *)

Module RISCV.
Definition name : string := "riscv".

Definition address_size : Z := 4.
Definition default_int_size : Z := 4.
Definition max_instr_length : Z := 4.

Definition endianness : Endianness := LittleEndian.

Definition disassembler : RVDisassembler.t := RVDisassembler.mk address_size.
Definition lifter : Lifter.t := Lifter.mk address_size.

Definition regs : gmap string RegisterInfo.t :=
  dict [
    (* x0 - hard-wired zero *)
    ("zero", RegisterInfo.mk "zero" address_size);
    (* x1 - return address *)
    ("ra", RegisterInfo.mk "ra" address_size);
    (* x2 - stack pointer *)
    ("sp", RegisterInfo.mk "sp" address_size);
    (* x3 - global pointer *)
    ("gp", RegisterInfo.mk "gp" address_size);
    (* x4 - thread pointer *)
    ("tp", RegisterInfo.mk "tp" address_size);
    (* x5-7 - temporaries *)
    ("t0", RegisterInfo.mk "t0" address_size);
    ("t1", RegisterInfo.mk "t1" address_size);
    ("t2", RegisterInfo.mk "t2" address_size);
    (* x8 - saved register / frame pointer *)
    ("s0", RegisterInfo.mk "s0" address_size);
    (* x9 - saved register *)
    ("s1", RegisterInfo.mk "s1" address_size);
    (* x10-x11 - first function argument and return value *)
    ("a0", RegisterInfo.mk "a0" address_size);
    ("a1", RegisterInfo.mk "a1" address_size);
    (* x12-17 - function arguments *)
    ("a2", RegisterInfo.mk "a2" address_size);
    ("a3", RegisterInfo.mk "a3" address_size);
    ("a4", RegisterInfo.mk "a4" address_size);
    ("a5", RegisterInfo.mk "a5" address_size);
    ("a6", RegisterInfo.mk "a6" address_size);
    ("a7", RegisterInfo.mk "a7" address_size);
    (* x18-27 - saved registers *)
    ("s2", RegisterInfo.mk "s2" address_size);
    ("s3", RegisterInfo.mk "s3" address_size);
    ("s4", RegisterInfo.mk "s4" address_size);
    ("s5", RegisterInfo.mk "s5" address_size);
    ("s6", RegisterInfo.mk "s6" address_size);
    ("s7", RegisterInfo.mk "s7" address_size);
    ("s8", RegisterInfo.mk "s8" address_size);
    ("s9", RegisterInfo.mk "s9" address_size);
    ("s10", RegisterInfo.mk "s10" address_size);
    ("s11", RegisterInfo.mk "s11" address_size);
    (* x28-31 - temporaries *)
    ("t3", RegisterInfo.mk "t3" address_size);
    ("t4", RegisterInfo.mk "t4" address_size);
    ("t5", RegisterInfo.mk "t5" address_size);
    ("t6", RegisterInfo.mk "t6" address_size);
    (* pc *)
    ("pc", RegisterInfo.mk "pc" address_size)
  ].

Definition stack_pointer : string := "sp".

(** The class as one value, the [self] of its methods. *)
Definition self : Architecture.t :=
  Architecture.mk name address_size default_int_size max_instr_length
    endianness disassembler lifter regs stack_pointer.
End RISCV.

(** ** [class RISCV64(RISCV)]

    The subclass overrides the attributes below and inherits
    [stack_pointer] and the three query methods. *)

Module RISCV64.
Definition name : string := "riscv64".

Definition address_size : Z := 8.
Definition default_int_size : Z := 8.
Definition max_instr_length : Z := 4.

Definition endianness : Endianness := LittleEndian.
Definition disassembler : RVDisassembler.t := RVDisassembler.mk address_size.
Definition lifter : Lifter.t := Lifter.mk address_size.

(** [{k: RegisterInfo(k, 8) for k, v in RISCV.regs.items()}]; the keys of a
    dictionary are distinct, so the order in which the items are visited
    does not show in the result. *)
Definition regs : gmap string RegisterInfo.t :=
  dict ((fun kv : string * RegisterInfo.t => (kv.1, RegisterInfo.mk kv.1 8))
          <$> map_to_list RISCV.regs).

Definition self : Architecture.t :=
  Architecture.mk name address_size default_int_size max_instr_length
    endianness disassembler lifter regs RISCV.stack_pointer.
End RISCV64.

(** ** The three host queries

    The methods are defined once, in [RISCV], and reach the disassembler and
    the lifter through [self]. The disassembler's [decode], the renderer
    [gen_token] and the lifter's [lift] are the parameters of the section;
    [decode] answers [None] for "no instruction here". The IL builder [il]
    is an object the lifter appends to, modelled by passing its state
    through. *)

Section Queries.

Context {LowLevelILFunction : Type}.

Variable decode : RVDisassembler.t -> list byte -> Z -> option Instruction.t.
Variable gen_token : Instruction.t -> list InstructionTextToken.t.
Variable lift :
  Lifter.t -> LowLevelILFunction -> Instruction.t -> string -> LowLevelILFunction.

Definition get_instruction_info (self : Architecture.t) (data : list byte) (addr : Z)
  : option InstructionInfo.t :=
  let instr := decode (Architecture.disassembler self) data addr in
  match instr with
  | None => None
  | Some instr =>
    let result := InstructionInfo.new in
    let result := InstructionInfo.set_length result (Instruction.size instr) in
    let dest := addr + Instruction.imm instr in
    let result :=
      if decide (Instruction.name instr = "ret") then
        InstructionInfo.add_branch result FunctionReturn None
      else if decide (Instruction.name instr ∈ branch_ins) then
        let result := InstructionInfo.add_branch result TrueBranch (Some dest) in
        InstructionInfo.add_branch result FalseBranch (Some (addr + 4))
      else if decide (Instruction.name instr ∈ direct_call_ins) then
        InstructionInfo.add_branch result CallDestination (Some dest)
      else if decide (Instruction.name instr ∈ indirect_call_ins) then
        InstructionInfo.add_branch result UnresolvedBranch None
      else result in
    Some result
  end.

Definition get_instruction_text (self : Architecture.t) (data : list byte) (addr : Z)
  : option (list InstructionTextToken.t * Z) :=
  let instr := decode (Architecture.disassembler self) data addr in
  match instr with
  | None => None
  | Some instr =>
    let tokens := gen_token instr in
    Some (tokens, Instruction.size instr)
  end.

(** The result pairs the returned value with the builder after the call. *)
Definition get_instruction_low_level_il (self : Architecture.t) (data : list byte)
    (addr : Z) (il : LowLevelILFunction) : option Z * LowLevelILFunction :=
  let instr := decode (Architecture.disassembler self) data addr in
  match instr with
  | None => (None, il)
  | Some instr =>
    let il := lift (Architecture.lifter self) il instr (Instruction.name instr) in
    (Some (Instruction.size instr), il)
  end.

End Queries.

(** Modelled from the spec: the size contract of the decoder, which lives
    in [instruction.py] and is not part of the sources at hand: the size of
    every recognised instruction is 4 bytes, the fixed width of the base
    encoding. *)
Definition fixed_width
    (decode : RVDisassembler.t -> list byte -> Z -> option Instruction.t) : Prop :=
  forall d data addr instr,
    decode d data addr = Some instr -> Instruction.size instr = 4.

(** ** A reference disassembler, renderer and lifter

    [instruction.py] and [lifter.py] are not part of the sources at hand.
    The results on the queries hold for every [decode], [gen_token] and
    [lift]; the definitions of this part make it possible to run the queries
    on concrete encodings. *)

Module SpecDecoder.

Definition xreg (n : Z) : string := nth (Z.to_nat n) gpr_names "zero".

Definition byte_val (b : byte) : Z := Z.of_N (Byte.to_N b).

(** The 4-byte little-endian opcode word at the start of [data]; absent when
    fewer than four bytes are available. *)
Definition opcode_word (data : list byte) : option Z :=
  match data with
  | b0 :: b1 :: b2 :: b3 :: _ =>
    Some (Z.lor (byte_val b0)
           (Z.lor (Z.shiftl (byte_val b1) 8)
             (Z.lor (Z.shiftl (byte_val b2) 16) (Z.shiftl (byte_val b3) 24))))
  | _ => None
  end.

(** The [n]-bit field of [w] that starts at bit [lo]. *)
Definition bits (w lo n : Z) : Z := Z.land (Z.shiftr w lo) (Z.ones n).

(** Sign extension of an [n]-bit value. *)
Definition sext (n v : Z) : Z := if Z.testbit v (n - 1) then v - 2 ^ n else v.

Definition rd (w : Z) : Z := bits w 7 5.
Definition funct3 (w : Z) : Z := bits w 12 3.
Definition rs1 (w : Z) : Z := bits w 15 5.
Definition rs2 (w : Z) : Z := bits w 20 5.
Definition funct7 (w : Z) : Z := bits w 25 7.

Definition imm_i (w : Z) : Z := sext 12 (bits w 20 12).
Definition imm_s (w : Z) : Z := sext 12 (Z.lor (Z.shiftl (bits w 25 7) 5) (bits w 7 5)).
Definition imm_b (w : Z) : Z :=
  sext 13 (Z.lor (Z.shiftl (bits w 31 1) 12)
            (Z.lor (Z.shiftl (bits w 7 1) 11)
              (Z.lor (Z.shiftl (bits w 25 6) 5) (Z.shiftl (bits w 8 4) 1)))).
Definition imm_u (w : Z) : Z := bits w 12 20.
Definition imm_j (w : Z) : Z :=
  sext 21 (Z.lor (Z.shiftl (bits w 31 1) 20)
            (Z.lor (Z.shiftl (bits w 12 8) 12)
              (Z.lor (Z.shiftl (bits w 20 1) 11) (Z.shiftl (bits w 21 10) 1)))).

(** What a format decoder yields: mnemonic, immediate, operands. *)
Definition fields : Type := string * Z * list Operand.

Definition reg_reg (n : string) (w : Z) : option fields :=
  Some (n, 0, [OpReg (xreg (rd w)); OpReg (xreg (rs1 w)); OpReg (xreg (rs2 w))]).

Definition reg_imm (n : string) (w i : Z) : option fields :=
  Some (n, i, [OpReg (xreg (rd w)); OpReg (xreg (rs1 w)); OpImm i]).

Definition load (n : string) (w : Z) : option fields :=
  Some (n, imm_i w, [OpReg (xreg (rd w)); OpMem (xreg (rs1 w)) (imm_i w)]).

Definition store (n : string) (w : Z) : option fields :=
  Some (n, imm_s w, [OpReg (xreg (rs2 w)); OpMem (xreg (rs1 w)) (imm_s w)]).

Definition upper (n : string) (w : Z) : option fields :=
  Some (n, imm_u w, [OpReg (xreg (rd w)); OpImm (imm_u w)]).

(** A branch comparing two registers, and its form against [zero]. *)
Definition branch2 (n : string) (w : Z) : option fields :=
  Some (n, imm_b w, [OpReg (xreg (rs1 w)); OpReg (xreg (rs2 w)); OpImm (imm_b w)]).

Definition branch1 (n : string) (r w : Z) : option fields :=
  Some (n, imm_b w, [OpReg (xreg r); OpImm (imm_b w)]).

Definition decode_branch (w : Z) : option fields :=
  match funct3 w with
  | 0 => if rs2 w =? 0 then branch1 "beqz" (rs1 w) w else branch2 "beq" w
  | 1 => if rs2 w =? 0 then branch1 "bnez" (rs1 w) w else branch2 "bne" w
  | 4 => if rs2 w =? 0 then branch1 "bltz" (rs1 w) w
         else if rs1 w =? 0 then branch1 "bgtz" (rs2 w) w
         else branch2 "blt" w
  | 5 => if rs1 w =? 0 then branch1 "blez" (rs2 w) w
         else if rs2 w =? 0 then branch1 "bgez" (rs1 w) w
         else branch2 "bge" w
  | 6 => branch2 "bltu" w
  | 7 => branch2 "bgeu" w
  | _ => None
  end.

Definition decode_jal (w : Z) : option fields :=
  if rd w =? 0 then Some ("j", imm_j w, [OpImm (imm_j w)])
  else Some ("jal", imm_j w, [OpReg (xreg (rd w)); OpImm (imm_j w)]).

Definition decode_jalr (w : Z) : option fields :=
  match funct3 w with
  | 0 =>
    if rd w =? 0 then
      if rs1 w =? 1 then Some ("ret", imm_i w, [])
      else Some ("jr", imm_i w, [OpMem (xreg (rs1 w)) (imm_i w)])
    else Some ("jalr", imm_i w, [OpReg (xreg (rd w)); OpMem (xreg (rs1 w)) (imm_i w)])
  | _ => None
  end.

Definition decode_load (mode w : Z) : option fields :=
  match funct3 w with
  | 0 => load "lb" w
  | 1 => load "lh" w
  | 2 => load "lw" w
  | 3 => if mode =? 8 then load "ld" w else None
  | 4 => load "lbu" w
  | 5 => load "lhu" w
  | 6 => if mode =? 8 then load "lwu" w else None
  | _ => None
  end.

Definition decode_store (mode w : Z) : option fields :=
  match funct3 w with
  | 0 => store "sb" w
  | 1 => store "sh" w
  | 2 => store "sw" w
  | 3 => if mode =? 8 then store "sd" w else None
  | _ => None
  end.

(** Shift amounts take five bits in the 32-bit variant and six in the
    64-bit one; the bits of the immediate above them select the kind of
    shift. *)
Definition shamt_bits (mode : Z) : Z := if mode =? 8 then 6 else 5.
Definition shamt (mode w : Z) : Z := bits w 20 (shamt_bits mode).
Definition shift_kind (mode w : Z) : Z :=
  Z.shiftl (bits w (20 + shamt_bits mode) (12 - shamt_bits mode)) (shamt_bits mode).

Definition decode_op_imm (mode w : Z) : option fields :=
  match funct3 w with
  | 0 => reg_imm "addi" w (imm_i w)
  | 1 => if shift_kind mode w =? 0 then reg_imm "slli" w (shamt mode w) else None
  | 2 => reg_imm "slti" w (imm_i w)
  | 3 => reg_imm "sltiu" w (imm_i w)
  | 4 => reg_imm "xori" w (imm_i w)
  | 5 => if shift_kind mode w =? 0 then reg_imm "srli" w (shamt mode w)
         else if shift_kind mode w =? 1024 then reg_imm "srai" w (shamt mode w)
         else None
  | 6 => reg_imm "ori" w (imm_i w)
  | 7 => reg_imm "andi" w (imm_i w)
  | _ => None
  end.

Definition decode_op (w : Z) : option fields :=
  match funct7 w, funct3 w with
  | 0, 0 => reg_reg "add" w
  | 0, 1 => reg_reg "sll" w
  | 0, 2 => reg_reg "slt" w
  | 0, 3 => reg_reg "sltu" w
  | 0, 4 => reg_reg "xor" w
  | 0, 5 => reg_reg "srl" w
  | 0, 6 => reg_reg "or" w
  | 0, 7 => reg_reg "and" w
  | 32, 0 => reg_reg "sub" w
  | 32, 5 => reg_reg "sra" w
  | _, _ => None
  end.

(** Dispatch on the major opcode to the format decoders. *)
Definition decode_word (mode w : Z) : option fields :=
  match bits w 0 7 with
  | 0x03 => decode_load mode w
  | 0x13 => decode_op_imm mode w
  | 0x17 => upper "auipc" w
  | 0x23 => decode_store mode w
  | 0x33 => decode_op w
  | 0x37 => upper "lui" w
  | 0x63 => decode_branch w
  | 0x67 => decode_jalr w
  | 0x6f => decode_jal w
  | _ => None
  end.

(** Modelled from the spec: the decoder [RVDisassembler.decode] of
    [instruction.py], which is not part of the sources at hand. Following
    section 4.1 of the specification it reads the 4-byte little-endian
    opcode word (failing when fewer than four bytes are available),
    dispatches on the opcode and function fields to the format decoders of
    the base instruction set (register-register, register-immediate, store,
    branch, jump, upper-immediate), rebuilds and sign-extends the
    immediates, renames the idioms the specification lists (a branch
    against the hard-wired zero register, a link-discarding jump, a
    link-discarding jump through the link register, which is the return),
    fails on every other opcode, and gives every instruction the size 4. *)
Definition decode (d : RVDisassembler.t) (data : list byte) (addr : Z)
  : option Instruction.t :=
  match opcode_word data with
  | None => None
  | Some w =>
    match decode_word (RVDisassembler.mode d) w with
    | None => None
    | Some (n, i, ops) => Some (Instruction.mk n 4 i ops)
    end
  end.

End SpecDecoder.

Module SpecRenderer.

Definition operand_tokens (o : Operand) : list InstructionTextToken.t :=
  match o with
  | OpReg r => [InstructionTextToken.mk RegisterToken r]
  | OpImm v => [InstructionTextToken.mk IntegerToken (pretty v)]
  | OpMem base disp =>
    [ InstructionTextToken.mk IntegerToken (pretty disp);
      InstructionTextToken.mk BeginMemoryOperandToken "(";
      InstructionTextToken.mk RegisterToken base;
      InstructionTextToken.mk EndMemoryOperandToken ")" ]
  end.

Fixpoint operands_tokens (ops : list Operand) : list InstructionTextToken.t :=
  match ops with
  | [] => []
  | [o] => operand_tokens o
  | o :: rest =>
    operand_tokens o ++ InstructionTextToken.mk OperandSeparatorToken ", "
      :: operands_tokens rest
  end.

(** Modelled from the spec: the renderer [gen_token] of [instruction.py],
    which is not part of the sources at hand: the mnemonic token, a
    separator, then one token group per operand, a memory operand being
    rendered as [displacement(base-register)]. *)
Definition gen_token (instr : Instruction.t) : list InstructionTextToken.t :=
  InstructionTextToken.mk InstructionToken (Instruction.name instr)
    :: InstructionTextToken.mk TextToken " "
    :: operands_tokens (Instruction.operands instr).

End SpecRenderer.

Module SpecLifter.

(** The IL builder as the sequence of operations appended to it; an
    operation is kept as the mnemonic that produced it together with the
    width of the lifter and the operands and immediate it was given. *)
Record ILOp : Type := mk_op {
  op_mnemonic : string;
  op_width : Z;
  op_operands : list Operand;
  op_imm : Z
}.

Definition LowLevelILFunction : Type := list ILOp.

(** Modelled from the spec: the entry point [Lifter.lift] of [lifter.py],
    which is not part of the sources at hand: it dispatches on the mnemonic
    alone, emits operations into the builder and returns nothing. The
    per-mnemonic translation rules are not modelled: one operation is
    appended per instruction. *)
Definition lift (l : Lifter.t) (il : LowLevelILFunction) (instr : Instruction.t)
    (mnemonic : string) : LowLevelILFunction :=
  il ++ [mk_op mnemonic (Lifter.addr_size l) (Instruction.operands instr)
           (Instruction.imm instr)].

End SpecLifter.

(** ** Sample encodings *)

Module Samples.

(** [j 0x20]: [jal zero, 0x20], the word [0x0200006f]. *)
Definition jump : list byte := [x6f; x00; x00; x02].
Definition jump_instr : Instruction.t := Instruction.mk "j" 4 32 [OpImm 32].

(** [beq a0, a1, -0x10], the word [0xfeb508e3]. *)
Definition branch : list byte := [xe3; x08; xb5; xfe].
Definition branch_instr : Instruction.t :=
  Instruction.mk "beq" 4 (-16) [OpReg "a0"; OpReg "a1"; OpImm (-16)].

(** [jalr zero, 0(ra)], the word [0x00008067], and the same jump with the
    displacement 4, the word [0x00408067]. *)
Definition ret : list byte := [x67; x80; x00; x00].
Definition ret_instr : Instruction.t := Instruction.mk "ret" 4 0 [].
Definition ret4 : list byte := [x67; x80; x40; x00].
Definition ret4_instr : Instruction.t := Instruction.mk "ret" 4 4 [].

(** [jalr ra, 0(a0)], the word [0x000500e7]. *)
Definition call_reg : list byte := [xe7; x00; x05; x00].
Definition call_reg_instr : Instruction.t :=
  Instruction.mk "jalr" 4 0 [OpReg "ra"; OpMem "a0" 0].

(** [addi a0, a0, 1], the word [0x00150513]. *)
Definition addi : list byte := [x13; x05; x15; x00].
Definition addi_instr : Instruction.t :=
  Instruction.mk "addi" 4 1 [OpReg "a0"; OpReg "a0"; OpImm 1].

(** The first two bytes of an instruction only. *)
Definition truncated : list byte := [x67; x80].

End Samples.

(** ** Vocabulary for statements about the reported facts *)

(** The kinds [get_instruction_info] passes a target with, and the kinds it
    passes without one. *)
Definition targeted_kinds : list BranchType :=
  [TrueBranch; FalseBranch; CallDestination].
Definition untargeted_kinds : list BranchType :=
  [FunctionReturn; UnresolvedBranch].

(** A fact is either of a targeted kind with a target, or of an untargeted
    kind without one. *)
Definition fact_shape (b : InstructionBranch.t) : Prop :=
  (InstructionBranch.type b ∈ targeted_kinds
   /\ is_Some (InstructionBranch.target b))
  \/ (InstructionBranch.type b ∈ untargeted_kinds
      /\ InstructionBranch.target b = None).

(** The kinds of the facts of a result, in order. *)
Definition kinds (result : InstructionInfo.t) : list BranchType :=
  InstructionBranch.type <$> InstructionInfo.branches result.

(** Moving every target of a result by [k] bytes. *)
Definition shift_branch (k : Z) (b : InstructionBranch.t) : InstructionBranch.t :=
  InstructionBranch.mk (InstructionBranch.type b)
    ((fun t => t + k) <$> InstructionBranch.target b).

Definition shift_info (k : Z) (result : InstructionInfo.t) : InstructionInfo.t :=
  InstructionInfo.mk (InstructionInfo.length result)
    (shift_branch k <$> InstructionInfo.branches result).

(** The attributes of a variant fit together: the disassembler, the lifter,
    the default integer size and every register use the variant's address
    size, and the stack pointer is a register of the table. *)
Definition coherent (self : Architecture.t) : Prop :=
  RVDisassembler.mode (Architecture.disassembler self) = Architecture.address_size self
  /\ Lifter.addr_size (Architecture.lifter self) = Architecture.address_size self
  /\ Architecture.default_int_size self = Architecture.address_size self
  /\ map_Forall (fun k r => RegisterInfo.size r = Architecture.address_size self)
       (Architecture.regs self)
  /\ Architecture.regs self !! Architecture.stack_pointer self
     = Some (RegisterInfo.mk (Architecture.stack_pointer self)
               (Architecture.address_size self)).

#[global] Instance coherent_dec self : Decision (coherent self).
Proof. unfold coherent. apply _. Defined.

(** * Properties *)

(** ** The classification sets *)

Lemma ret_not_branch : "ret" ∉ branch_ins.
Proof. compute_done. Qed.

Lemma ret_not_direct : "ret" ∉ direct_call_ins.
Proof. compute_done. Qed.

Lemma ret_not_indirect : "ret" ∉ indirect_call_ins.
Proof. compute_done. Qed.

Lemma branch_direct_disjoint : branch_ins ## direct_call_ins.
Proof. compute_done. Qed.

Lemma branch_indirect_disjoint : branch_ins ## indirect_call_ins.
Proof. compute_done. Qed.

Lemma direct_indirect_disjoint : direct_call_ins ## indirect_call_ins.
Proof. compute_done. Qed.

Lemma branch_not_ret n : n ∈ branch_ins -> n ≠ "ret".
Proof. intros Hin ->. exact (ret_not_branch Hin). Qed.

Lemma direct_not_ret n : n ∈ direct_call_ins -> n ≠ "ret".
Proof. intros Hin ->. exact (ret_not_direct Hin). Qed.

Lemma indirect_not_ret n : n ∈ indirect_call_ins -> n ≠ "ret".
Proof. intros Hin ->. exact (ret_not_indirect Hin). Qed.

Lemma direct_not_branch n : n ∈ direct_call_ins -> n ∉ branch_ins.
Proof. intros Hd Hb. exact (branch_direct_disjoint n Hb Hd). Qed.

Lemma indirect_not_branch n : n ∈ indirect_call_ins -> n ∉ branch_ins.
Proof. intros Hi Hb. exact (branch_indirect_disjoint n Hb Hi). Qed.

Lemma indirect_not_direct n : n ∈ indirect_call_ins -> n ∉ direct_call_ins.
Proof. intros Hi Hd. exact (direct_indirect_disjoint n Hd Hi). Qed.

(** Two categories that hold of the same mnemonic are the same category. *)
Lemma in_category_unique c1 c2 n : in_category c1 n -> in_category c2 n -> c1 = c2.
Proof.
  destruct c1, c2; simpl; intros H1 H2; try reflexivity; exfalso.
  - exact (branch_not_ret n H2 H1).
  - exact (direct_not_ret n H2 H1).
  - exact (indirect_not_ret n H2 H1).
  - exact (branch_not_ret n H1 H2).
  - exact (direct_not_branch n H2 H1).
  - exact (indirect_not_branch n H2 H1).
  - exact (direct_not_ret n H1 H2).
  - exact (direct_not_branch n H1 H2).
  - exact (indirect_not_direct n H2 H1).
  - exact (indirect_not_ret n H1 H2).
  - exact (indirect_not_branch n H1 H2).
  - exact (indirect_not_direct n H1 H2).
Qed.

(** C7: the sets of branches, direct transfers and indirect transfers are
    pairwise disjoint, the return mnemonic ["ret"] is in none of them, and
    every mnemonic falls in at most one of the four categories. *)
Theorem classification_disjoint :
  branch_ins ## direct_call_ins
  /\ branch_ins ## indirect_call_ins
  /\ direct_call_ins ## indirect_call_ins
  /\ ("ret" ∉ branch_ins ∪ direct_call_ins ∪ indirect_call_ins)
  /\ (forall mnemonic, (length (categories mnemonic) <= 1)%nat).
Proof.
  split; [exact branch_direct_disjoint|].
  split; [exact branch_indirect_disjoint|].
  split; [exact direct_indirect_disjoint|].
  split; [compute_done|].
  intros n. unfold categories. cbn [filter list_filter].
  repeat case_decide; cbn [length]; try lia; exfalso;
    match goal with
    | Ha : in_category ?a n, Hb : in_category ?b n |- _ =>
      discriminate (in_category_unique a b n Ha Hb)
    end.
Qed.

(** ** The reference disassembler meets the size contract *)

Lemma spec_decode_fixed_width : fixed_width SpecDecoder.decode.
Proof.
  intros d data addr instr. unfold SpecDecoder.decode.
  destruct (SpecDecoder.opcode_word data) as [w|]; [|discriminate].
  destruct (SpecDecoder.decode_word (RVDisassembler.mode d) w) as [[[n i] ops]|];
    [|discriminate].
  intros [= <-]. reflexivity.
Qed.

(** Fewer than four bytes never decode. *)
Lemma spec_decode_truncated d data addr :
  (length data < 4)%nat -> SpecDecoder.decode d data addr = None.
Proof.
  intros Hlen. unfold SpecDecoder.decode.
  destruct data as [|b0 [|b1 [|b2 [|b3 rest]]]]; simpl in *; try reflexivity; lia.
Qed.

(** The reference disassembler on some well-known encodings:
    [addi sp, sp, -16], [sw ra, 12(sp)], [beqz a0, 8], [j -4], and [ld],
    which only the 64-bit variant has. *)
Example spec_decode_addi :
  SpecDecoder.decode RISCV.disassembler [x13; x01; x01; xff] 0
  = Some (Instruction.mk "addi" 4 (-16) [OpReg "sp"; OpReg "sp"; OpImm (-16)]).
Proof. reflexivity. Qed.

Example spec_decode_sw :
  SpecDecoder.decode RISCV.disassembler [x23; x26; x11; x00] 0
  = Some (Instruction.mk "sw" 4 12 [OpReg "ra"; OpMem "sp" 12]).
Proof. reflexivity. Qed.

Example spec_decode_beqz :
  SpecDecoder.decode RISCV.disassembler [x63; x04; x05; x00] 0
  = Some (Instruction.mk "beqz" 4 8 [OpReg "a0"; OpImm 8]).
Proof. reflexivity. Qed.

Example spec_decode_j_back :
  SpecDecoder.decode RISCV.disassembler [x6f; xf0; xdf; xff] 0
  = Some (Instruction.mk "j" 4 (-4) [OpImm (-4)]).
Proof. reflexivity. Qed.

Example spec_decode_ld :
  SpecDecoder.decode RISCV.disassembler [x83; x30; x81; x00] 0 = None
  /\ SpecDecoder.decode RISCV64.disassembler [x83; x30; x81; x00] 0
     = Some (Instruction.mk "ld" 4 8 [OpReg "ra"; OpMem "sp" 8]).
Proof. split; reflexivity. Qed.

(** ** The host queries *)

(** Open the info query at a decoded instruction. *)
Ltac info_of Hdec :=
  unfold get_instruction_info; rewrite Hdec; cbv zeta.

(** Walk the [if]/[elif] chain; the branches that the facts at hand rule
    out go by contradiction, the one that is left holds by computation. *)
Ltac classify :=
  repeat case_decide; first [contradiction | reflexivity].

Section QueryFacts.

Context {LowLevelILFunction : Type}.

Variable decode : RVDisassembler.t -> list byte -> Z -> option Instruction.t.
Variable gen_token : Instruction.t -> list InstructionTextToken.t.
Variable lift :
  Lifter.t -> LowLevelILFunction -> Instruction.t -> string -> LowLevelILFunction.

Implicit Types (self : Architecture.t) (data : list byte) (addr : Z).
Implicit Types (instr : Instruction.t) (il : LowLevelILFunction).

Local Abbreviation info := (get_instruction_info decode).
Local Abbreviation text := (get_instruction_text decode gen_token).
Local Abbreviation low_level_il := (get_instruction_low_level_il decode lift).

(** Whatever the mnemonic, a decoded instruction yields an info whose
    length is the instruction's size. *)
Lemma info_length self data addr instr :
  decode (Architecture.disassembler self) data addr = Some instr ->
  InstructionInfo.length <$> info self data addr = Some (Instruction.size instr).
Proof.
  intros Hdec. info_of Hdec. repeat case_decide; reflexivity.
Qed.

(** C1: when the bytes at an address decode, the info query, the text query
    and the IL query return the same length, the size of the decoded
    instruction, and that size is 4 for a decoder that meets the size
    contract of the base encoding. *)
Theorem length_agreement self data addr il instr :
  fixed_width decode ->
  decode (Architecture.disassembler self) data addr = Some instr ->
  InstructionInfo.length <$> info self data addr = Some (Instruction.size instr)
  /\ snd <$> text self data addr = Some (Instruction.size instr)
  /\ fst (low_level_il self data addr il) = Some (Instruction.size instr)
  /\ Instruction.size instr = 4.
Proof.
  intros Hwidth Hdec. split; [exact (info_length self data addr instr Hdec)|].
  split; [unfold get_instruction_text; rewrite Hdec; reflexivity|].
  split; [unfold get_instruction_low_level_il; rewrite Hdec; reflexivity|].
  exact (Hwidth _ _ _ _ Hdec).
Qed.

(** What the method computes for a mnemonic of [branch_ins], for any
    decoder: the fall-through target is the address plus the constant 4. *)
Lemma conditional_branch_targets self data addr instr :
  decode (Architecture.disassembler self) data addr = Some instr ->
  Instruction.name instr ∈ branch_ins ->
  info self data addr
  = Some (InstructionInfo.mk (Instruction.size instr)
            [ InstructionBranch.mk TrueBranch (Some (addr + Instruction.imm instr));
              InstructionBranch.mk FalseBranch (Some (addr + 4)) ]).
Proof.
  intros Hdec Hbr. pose proof (branch_not_ret _ Hbr).
  info_of Hdec. classify.
Qed.

(** C2: for a decoded instruction whose mnemonic is in [branch_ins], the
    info query reports exactly two facts, in this order: the taken target
    [addr + imm] and the fall-through target [addr + size]; the method adds
    4 to the address, which is the size under the decoder's size contract. *)
Theorem conditional_branch_facts self data addr instr :
  fixed_width decode ->
  decode (Architecture.disassembler self) data addr = Some instr ->
  Instruction.name instr ∈ branch_ins ->
  info self data addr
  = Some (InstructionInfo.mk (Instruction.size instr)
            [ InstructionBranch.mk TrueBranch (Some (addr + Instruction.imm instr));
              InstructionBranch.mk FalseBranch (Some (addr + Instruction.size instr)) ]).
Proof.
  intros Hwidth Hdec Hbr.
  rewrite (conditional_branch_targets self data addr instr Hdec Hbr).
  rewrite (Hwidth _ _ _ _ Hdec). reflexivity.
Qed.

(** C3: when the decoder reports no instruction, each of the three queries
    answers [None]; the IL query leaves the builder as it was. *)
Theorem decode_failure_is_absence self data addr il :
  decode (Architecture.disassembler self) data addr = None ->
  info self data addr = None
  /\ text self data addr = None
  /\ low_level_il self data addr il = (None, il).
Proof.
  intros Hdec.
  unfold get_instruction_info, get_instruction_text, get_instruction_low_level_il.
  rewrite Hdec. auto.
Qed.

(** C4: for a decoded instruction named ["ret"], the info query reports one
    fact and no more: a function return without a target. *)
Theorem return_fact self data addr instr :
  decode (Architecture.disassembler self) data addr = Some instr ->
  Instruction.name instr = "ret" ->
  info self data addr
  = Some (InstructionInfo.mk (Instruction.size instr)
            [ InstructionBranch.mk FunctionReturn None ]).
Proof.
  intros Hdec Hret. info_of Hdec. classify.
Qed.

(** C5: for a decoded instruction whose mnemonic is in [direct_call_ins],
    the info query reports one fact and no more, whose target is
    [addr + imm]. *)
Theorem direct_transfer_fact self data addr instr :
  decode (Architecture.disassembler self) data addr = Some instr ->
  Instruction.name instr ∈ direct_call_ins ->
  info self data addr
  = Some (InstructionInfo.mk (Instruction.size instr)
            [ InstructionBranch.mk CallDestination
                (Some (addr + Instruction.imm instr)) ]).
Proof.
  intros Hdec Hdir.
  pose proof (direct_not_ret _ Hdir). pose proof (direct_not_branch _ Hdir).
  info_of Hdec. classify.
Qed.

(** C6: for a decoded instruction whose mnemonic is in [indirect_call_ins],
    the info query reports one fact and no more, an unresolved branch
    without a target; neither the operands nor the immediate enter it. *)
Theorem indirect_transfer_fact self data addr instr :
  decode (Architecture.disassembler self) data addr = Some instr ->
  Instruction.name instr ∈ indirect_call_ins ->
  info self data addr
  = Some (InstructionInfo.mk (Instruction.size instr)
            [ InstructionBranch.mk UnresolvedBranch None ]).
Proof.
  intros Hdec Hind.
  pose proof (indirect_not_ret _ Hind). pose proof (indirect_not_branch _ Hind).
  pose proof (indirect_not_direct _ Hind).
  info_of Hdec. classify.
Qed.

(** C8: for a decoded instruction whose mnemonic is not ["ret"] and is in
    none of the three sets, the info query succeeds with the length set to
    the instruction's size and with no fact at all. *)
Theorem fallthrough_only self data addr instr :
  decode (Architecture.disassembler self) data addr = Some instr ->
  Instruction.name instr ≠ "ret" ->
  Instruction.name instr ∉ branch_ins ->
  Instruction.name instr ∉ direct_call_ins ->
  Instruction.name instr ∉ indirect_call_ins ->
  info self data addr = Some (InstructionInfo.mk (Instruction.size instr) []).
Proof.
  intros Hdec Hret Hbr Hdir Hind. info_of Hdec. classify.
Qed.

(** C10: two decoded instructions named ["ret"] that differ at most in
    their immediate get the same info at the same address. *)
Theorem return_ignores_immediate self data1 data2 addr instr1 instr2 :
  decode (Architecture.disassembler self) data1 addr = Some instr1 ->
  decode (Architecture.disassembler self) data2 addr = Some instr2 ->
  Instruction.name instr1 = "ret" ->
  Instruction.name instr2 = "ret" ->
  Instruction.same_but_imm instr1 instr2 ->
  info self data1 addr = info self data2 addr.
Proof.
  intros Hdec1 Hdec2 Hret1 Hret2 (_ & Hsize & _).
  unfold get_instruction_info. rewrite Hdec1, Hdec2. cbv zeta.
  rewrite Hsize. classify.
Qed.

End QueryFacts.

(** ** The queries on the sample encodings *)

Lemma length_agreement_witness :
  InstructionInfo.length
    <$> get_instruction_info SpecDecoder.decode RISCV.self Samples.jump 0x1000
  = Some 4
  /\ snd <$> get_instruction_text SpecDecoder.decode SpecRenderer.gen_token
               RISCV.self Samples.jump 0x1000
     = Some 4
  /\ fst (get_instruction_low_level_il SpecDecoder.decode SpecLifter.lift
            RISCV.self Samples.jump 0x1000 [])
     = Some 4
  /\ Instruction.size Samples.jump_instr = 4.
Proof.
  apply (length_agreement SpecDecoder.decode SpecRenderer.gen_token SpecLifter.lift
           RISCV.self Samples.jump 0x1000 [] Samples.jump_instr).
  - exact spec_decode_fixed_width.
  - vm_compute. reflexivity.
Defined.

Lemma conditional_branch_facts_witness :
  "beq" ∈ branch_ins
  /\ get_instruction_info SpecDecoder.decode RISCV.self Samples.branch 0x2000
     = Some (InstructionInfo.mk 4
               [ InstructionBranch.mk TrueBranch (Some 0x1ff0);
                 InstructionBranch.mk FalseBranch (Some 0x2004) ]).
Proof.
  split; [compute_done|].
  apply (conditional_branch_facts SpecDecoder.decode RISCV.self Samples.branch
           0x2000 Samples.branch_instr).
  - exact spec_decode_fixed_width.
  - vm_compute. reflexivity.
  - compute_done.
Defined.

Lemma decode_failure_is_absence_witness :
  SpecDecoder.decode (Architecture.disassembler RISCV64.self) Samples.truncated 0x2000
  = None
  /\ get_instruction_info SpecDecoder.decode RISCV64.self Samples.truncated 0x2000
     = None
  /\ get_instruction_text SpecDecoder.decode SpecRenderer.gen_token
       RISCV64.self Samples.truncated 0x2000
     = None
  /\ get_instruction_low_level_il SpecDecoder.decode SpecLifter.lift
       RISCV64.self Samples.truncated 0x2000 []
     = (None, []).
Proof.
  split; [reflexivity|].
  apply (decode_failure_is_absence SpecDecoder.decode SpecRenderer.gen_token
           SpecLifter.lift RISCV64.self Samples.truncated 0x2000 []).
  reflexivity.
Defined.

Lemma return_fact_witness :
  get_instruction_info SpecDecoder.decode RISCV64.self Samples.ret 0x2000
  = Some (InstructionInfo.mk 4 [ InstructionBranch.mk FunctionReturn None ]).
Proof.
  apply (return_fact SpecDecoder.decode RISCV64.self Samples.ret 0x2000
           Samples.ret_instr).
  - vm_compute. reflexivity.
  - reflexivity.
Defined.

Lemma direct_transfer_fact_witness :
  "j" ∈ direct_call_ins
  /\ get_instruction_info SpecDecoder.decode RISCV.self Samples.jump 0x1000
     = Some (InstructionInfo.mk 4 [ InstructionBranch.mk CallDestination (Some 0x1020) ]).
Proof.
  split; [compute_done|].
  apply (direct_transfer_fact SpecDecoder.decode RISCV.self Samples.jump 0x1000
           Samples.jump_instr).
  - vm_compute. reflexivity.
  - compute_done.
Defined.

Lemma indirect_transfer_fact_witness :
  "jalr" ∈ indirect_call_ins
  /\ get_instruction_info SpecDecoder.decode RISCV.self Samples.call_reg 0x1000
     = Some (InstructionInfo.mk 4 [ InstructionBranch.mk UnresolvedBranch None ]).
Proof.
  split; [compute_done|].
  apply (indirect_transfer_fact SpecDecoder.decode RISCV.self Samples.call_reg
           0x1000 Samples.call_reg_instr).
  - vm_compute. reflexivity.
  - compute_done.
Defined.

Lemma fallthrough_only_witness :
  get_instruction_info SpecDecoder.decode RISCV64.self Samples.addi 0x2000
  = Some (InstructionInfo.mk 4 []).
Proof.
  apply (fallthrough_only SpecDecoder.decode RISCV64.self Samples.addi 0x2000
           Samples.addi_instr).
  - vm_compute. reflexivity.
  - discriminate.
  - compute_done.
  - compute_done.
  - compute_done.
Defined.

Lemma return_ignores_immediate_witness :
  Instruction.imm Samples.ret_instr ≠ Instruction.imm Samples.ret4_instr
  /\ get_instruction_info SpecDecoder.decode RISCV.self Samples.ret 0x3000
     = get_instruction_info SpecDecoder.decode RISCV.self Samples.ret4 0x3000.
Proof.
  split; [discriminate|].
  apply (return_ignores_immediate SpecDecoder.decode RISCV.self Samples.ret
           Samples.ret4 0x3000 Samples.ret_instr Samples.ret4_instr).
  - vm_compute. reflexivity.
  - vm_compute. reflexivity.
  - reflexivity.
  - reflexivity.
  - repeat split.
Defined.

(** ** The register tables *)

(** C9: each variant's register table has exactly 33 entries, the 32
    general-purpose registers and [pc]; both tables have the same names;
    every entry carries its own name, with width 4 in the 32-bit variant and
    width 8 in the 64-bit variant. *)
Theorem register_tables :
  size RISCV.regs = 33%nat
  /\ size RISCV64.regs = 33%nat
  /\ length gpr_names = 32%nat
  /\ NoDup (gpr_names ++ ["pc"])
  /\ dom RISCV.regs = list_to_set (gpr_names ++ ["pc"])
  /\ dom RISCV64.regs = dom RISCV.regs
  /\ map_Forall (fun k r => RegisterInfo.full_width_reg r = k
                            /\ RegisterInfo.size r = 4) RISCV.regs
  /\ map_Forall (fun k r => RegisterInfo.full_width_reg r = k
                            /\ RegisterInfo.size r = 8) RISCV64.regs.
Proof.
  split; [compute_done|]. split; [compute_done|]. split; [reflexivity|].
  split; [compute_done|]. split; [compute_done|]. split; [compute_done|].
  split; compute_done.
Qed.

(** ** Truncated input on the reference disassembler

    With fewer than four bytes at hand the reference disassembler finds no
    instruction, and the three queries answer accordingly. *)
Lemma truncated_is_absence self data addr il :
  (length data < 4)%nat ->
  get_instruction_info SpecDecoder.decode self data addr = None
  /\ get_instruction_text SpecDecoder.decode SpecRenderer.gen_token self data addr
     = None
  /\ get_instruction_low_level_il SpecDecoder.decode SpecLifter.lift self data addr il
     = (None, il).
Proof.
  intros Hlen.
  pose proof (spec_decode_truncated (Architecture.disassembler self) data addr Hlen)
    as Hdec.
  unfold get_instruction_info, get_instruction_text, get_instruction_low_level_il.
  rewrite Hdec. auto.
Qed.

(** * Further properties of the queries *)

(** Two different categories cannot hold of one mnemonic. *)
Ltac category_clash :=
  exfalso;
  match goal with
  | Ha : ?n = "ret", Hb : ?n ∈ branch_ins |- _ =>
    exact (branch_not_ret n Hb Ha)
  | Ha : ?n = "ret", Hb : ?n ∈ direct_call_ins |- _ =>
    exact (direct_not_ret n Hb Ha)
  | Ha : ?n = "ret", Hb : ?n ∈ indirect_call_ins |- _ =>
    exact (indirect_not_ret n Hb Ha)
  | Ha : ?n ∈ branch_ins, Hb : ?n ∈ direct_call_ins |- _ =>
    exact (direct_not_branch n Hb Ha)
  | Ha : ?n ∈ branch_ins, Hb : ?n ∈ indirect_call_ins |- _ =>
    exact (indirect_not_branch n Hb Ha)
  | Ha : ?n ∈ direct_call_ins, Hb : ?n ∈ indirect_call_ins |- _ =>
    exact (indirect_not_direct n Hb Ha)
  end.

(** A kind that is none of the kinds of a short list. *)
Ltac kinds_clash :=
  exfalso;
  repeat match goal with
  | H : _ \/ _ |- _ => destruct H as [H|H]
  | H : False |- _ => destruct H
  | H : @eq BranchType _ _ |- _ => discriminate H
  end.

Section QueryShape.

Context {LowLevelILFunction : Type}.

Variable decode : RVDisassembler.t -> list byte -> Z -> option Instruction.t.
Variable gen_token : Instruction.t -> list InstructionTextToken.t.
Variable lift :
  Lifter.t -> LowLevelILFunction -> Instruction.t -> string -> LowLevelILFunction.

Implicit Types (self : Architecture.t) (data : list byte) (addr k : Z).
Implicit Types (instr : Instruction.t) (il : LowLevelILFunction).
Implicit Types (result : InstructionInfo.t).

Local Abbreviation info := (get_instruction_info decode).
Local Abbreviation text := (get_instruction_text decode gen_token).
Local Abbreviation low_level_il := (get_instruction_low_level_il decode lift).

(** A result of the info query comes from a decoded instruction. *)
Lemma info_Some_decoded self data addr result :
  info self data addr = Some result ->
  exists instr, decode (Architecture.disassembler self) data addr = Some instr.
Proof.
  unfold get_instruction_info.
  destruct (decode (Architecture.disassembler self) data addr) as [instr|];
    [eauto|discriminate].
Qed.

Lemma fact_shape_targeted kind t :
  kind ∈ targeted_kinds -> fact_shape (InstructionBranch.mk kind (Some t)).
Proof. intros Hin. left. split; [exact Hin|eexists; reflexivity]. Qed.

Lemma fact_shape_untargeted kind :
  kind ∈ untargeted_kinds -> fact_shape (InstructionBranch.mk kind None).
Proof. intros Hin. right. split; [exact Hin|reflexivity]. Qed.

(** X1: whatever the decoder returns, a result of the info query holds at
    most two facts. *)
Theorem info_at_most_two_facts self data addr result :
  info self data addr = Some result ->
  (length (InstructionInfo.branches result) <= 2)%nat.
Proof.
  intros Hinfo. destruct (info_Some_decoded _ _ _ _ Hinfo) as [instr Hdec].
  revert Hinfo. info_of Hdec. intros [= <-].
  repeat case_decide; simpl; lia.
Qed.

(** X2: the result for a decoded instruction has no fact exactly when the
    mnemonic is not ["ret"] and is in none of the three sets; every
    classified mnemonic yields at least one fact. *)
Theorem no_fact_iff_unclassified self data addr instr result :
  decode (Architecture.disassembler self) data addr = Some instr ->
  info self data addr = Some result ->
  InstructionInfo.branches result = []
  <-> (Instruction.name instr ≠ "ret"
       /\ (Instruction.name instr ∉ branch_ins)
       /\ (Instruction.name instr ∉ direct_call_ins)
       /\ (Instruction.name instr ∉ indirect_call_ins)).
Proof.
  intros Hdec. info_of Hdec. intros [= <-].
  repeat case_decide; simpl;
    (split;
      [ intros Heq; first [discriminate Heq | repeat split; assumption]
      | intros (? & ? & ? & ?); first [contradiction | reflexivity] ]).
Qed.

(** X3: every fact of a result has one of five kinds: a true branch, a
    false branch or a call destination, each with a target, or a function
    return or an unresolved branch, each without one. No other kind of the
    host's enumeration is ever reported. *)
Theorem facts_have_shape self data addr result :
  info self data addr = Some result ->
  Forall fact_shape (InstructionInfo.branches result).
Proof.
  intros Hinfo. destruct (info_Some_decoded _ _ _ _ Hinfo) as [instr Hdec].
  revert Hinfo. info_of Hdec. intros [= <-].
  repeat case_decide; cbn;
    repeat first [apply Forall_nil_2 | apply Forall_cons_2];
    first [apply fact_shape_targeted | apply fact_shape_untargeted];
    compute_done.
Qed.

(** X4: on every input, decoded or not, the three queries answer alike:
    the length of the info, the length beside the tokens and the length the
    IL query returns are the same optional value, so one query fails
    exactly when the others do. No assumption on the decoder is needed. *)
Theorem queries_agree_everywhere self data addr il :
  InstructionInfo.length <$> info self data addr = snd <$> text self data addr
  /\ snd <$> text self data addr = fst (low_level_il self data addr il).
Proof.
  unfold get_instruction_info, get_instruction_text, get_instruction_low_level_il.
  destruct (decode (Architecture.disassembler self) data addr) as [instr|];
    [|split; reflexivity].
  cbv zeta. split; [|reflexivity].
  repeat case_decide; reflexivity.
Qed.

(** X5: outside [branch_ins] and [direct_call_ins] the result depends on
    the mnemonic and the size only: two decoded instructions with the same
    mnemonic and size get the same info, at whatever addresses they sit and
    whatever their immediates are. *)
Theorem untargeted_info_ignores_address self data1 data2 addr1 addr2 instr1 instr2 :
  decode (Architecture.disassembler self) data1 addr1 = Some instr1 ->
  decode (Architecture.disassembler self) data2 addr2 = Some instr2 ->
  Instruction.name instr1 = Instruction.name instr2 ->
  Instruction.size instr1 = Instruction.size instr2 ->
  Instruction.name instr1 ∉ branch_ins ->
  Instruction.name instr1 ∉ direct_call_ins ->
  info self data1 addr1 = info self data2 addr2.
Proof.
  intros Hdec1 Hdec2 Hname Hsize Hbr Hdir.
  unfold get_instruction_info. rewrite Hdec1, Hdec2. cbv zeta.
  rewrite <- Hname, <- Hsize. classify.
Qed.

(** X6: the targets are relative to the address. When the decoder yields
    the same instruction at [addr] and at [addr + k], the info at
    [addr + k] is the info at [addr] with every target moved by [k]. *)
Theorem info_translation self data addr k instr :
  decode (Architecture.disassembler self) data addr = Some instr ->
  decode (Architecture.disassembler self) data (addr + k) = Some instr ->
  info self data (addr + k) = shift_info k <$> info self data addr.
Proof.
  intros Hdec Hdeck. unfold get_instruction_info. rewrite Hdec, Hdeck. cbv zeta.
  replace (addr + k + Instruction.imm instr)
    with (addr + Instruction.imm instr + k) by lia.
  replace (addr + k + 4) with (addr + 4 + k) by lia.
  repeat case_decide; reflexivity.
Qed.

(** X7: for a mnemonic of [branch_ins] the fall-through fact is the address
    plus the constant 4, whatever size the decoder reports; it is the
    address plus the reported length exactly when that size is 4. *)
Theorem fallthrough_matches_length_iff self data addr instr result :
  decode (Architecture.disassembler self) data addr = Some instr ->
  Instruction.name instr ∈ branch_ins ->
  info self data addr = Some result ->
  InstructionBranch.mk FalseBranch (Some (addr + 4)) ∈ InstructionInfo.branches result
  /\ (InstructionBranch.mk FalseBranch (Some (addr + InstructionInfo.length result))
        ∈ InstructionInfo.branches result
      <-> Instruction.size instr = 4).
Proof.
  intros Hdec Hbr. pose proof (branch_not_ret _ Hbr) as Hret.
  info_of Hdec. intros [= <-].
  destruct (decide (Instruction.name instr = "ret")); [contradiction|].
  destruct (decide (Instruction.name instr ∈ branch_ins)); [|contradiction].
  cbn. rewrite !elem_of_cons, !elem_of_nil.
  split; [right; left; reflexivity|]. split.
  - intros [Hfact|[Hfact|[]]]; [discriminate Hfact|].
    injection Hfact as Heq. lia.
  - intros ->. right. left. reflexivity.
Qed.

(** X9: the kinds of the facts tell the category of the mnemonic back: a
    function return is reported exactly for ["ret"], a true branch and a
    false branch exactly for the mnemonics of [branch_ins], a call
    destination exactly for those of [direct_call_ins], an unresolved
    branch exactly for those of [indirect_call_ins]. *)
Theorem kinds_tell_category self data addr instr result :
  decode (Architecture.disassembler self) data addr = Some instr ->
  info self data addr = Some result ->
  (FunctionReturn ∈ kinds result <-> Instruction.name instr = "ret")
  /\ (TrueBranch ∈ kinds result <-> Instruction.name instr ∈ branch_ins)
  /\ (FalseBranch ∈ kinds result <-> Instruction.name instr ∈ branch_ins)
  /\ (CallDestination ∈ kinds result <-> Instruction.name instr ∈ direct_call_ins)
  /\ (UnresolvedBranch ∈ kinds result
      <-> Instruction.name instr ∈ indirect_call_ins).
Proof.
  intros Hdec. info_of Hdec. intros [= <-]. unfold kinds.
  repeat case_decide; cbn -[branch_ins direct_call_ins indirect_call_ins];
    rewrite ?elem_of_cons, ?elem_of_nil; repeat split; intros;
    first [ assumption | contradiction | category_clash
          | left; reflexivity | right; left; reflexivity
          | solve [kinds_clash] ].
Qed.

End QueryShape.

(** ** The two variants *)


(** ** The further properties on the sample encodings *)

Lemma info_at_most_two_facts_witness :
  le (length [ InstructionBranch.mk TrueBranch (Some 0x1ff0);
               InstructionBranch.mk FalseBranch (Some 0x2004) ]) 2.
Proof.
  apply (info_at_most_two_facts SpecDecoder.decode RISCV.self Samples.branch 0x2000
           (InstructionInfo.mk 4
              [ InstructionBranch.mk TrueBranch (Some 0x1ff0);
                InstructionBranch.mk FalseBranch (Some 0x2004) ])).
  vm_compute. reflexivity.
Defined.

Lemma no_fact_iff_unclassified_witness :
  @nil InstructionBranch.t = []
  <-> ("addi" ≠ "ret"
       /\ ("addi" ∉ branch_ins)
       /\ ("addi" ∉ direct_call_ins)
       /\ ("addi" ∉ indirect_call_ins)).
Proof.
  apply (no_fact_iff_unclassified SpecDecoder.decode RISCV64.self Samples.addi
           0x2000 Samples.addi_instr (InstructionInfo.mk 4 [])).
  - vm_compute. reflexivity.
  - vm_compute. reflexivity.
Defined.

Lemma facts_have_shape_witness :
  Forall fact_shape
    [ InstructionBranch.mk TrueBranch (Some 0x1ff0);
      InstructionBranch.mk FalseBranch (Some 0x2004) ].
Proof.
  apply (facts_have_shape SpecDecoder.decode RISCV.self Samples.branch 0x2000
           (InstructionInfo.mk 4
              [ InstructionBranch.mk TrueBranch (Some 0x1ff0);
                InstructionBranch.mk FalseBranch (Some 0x2004) ])).
  vm_compute. reflexivity.
Defined.

Lemma untargeted_info_ignores_address_witness :
  get_instruction_info SpecDecoder.decode RISCV.self Samples.call_reg 0x1000
  = get_instruction_info SpecDecoder.decode RISCV.self [xe7; x00; x85; x00] 0x2000.
Proof.
  apply (untargeted_info_ignores_address SpecDecoder.decode RISCV.self
           Samples.call_reg [xe7; x00; x85; x00] 0x1000 0x2000
           Samples.call_reg_instr
           (Instruction.mk "jalr" 4 8 [OpReg "ra"; OpMem "a0" 8])).
  - vm_compute. reflexivity.
  - vm_compute. reflexivity.
  - reflexivity.
  - reflexivity.
  - compute_done.
  - compute_done.
Defined.

Lemma info_translation_witness :
  get_instruction_info SpecDecoder.decode RISCV.self Samples.branch (0x2000 + 0x100)
  = shift_info 0x100
      <$> get_instruction_info SpecDecoder.decode RISCV.self Samples.branch 0x2000.
Proof.
  apply (info_translation SpecDecoder.decode RISCV.self Samples.branch 0x2000 0x100
           Samples.branch_instr).
  - vm_compute. reflexivity.
  - vm_compute. reflexivity.
Defined.

Lemma fallthrough_matches_length_iff_witness :
  InstructionBranch.mk FalseBranch (Some (0x2000 + 4))
    ∈ [ InstructionBranch.mk TrueBranch (Some 0x1ff0);
        InstructionBranch.mk FalseBranch (Some 0x2004) ]
  /\ (InstructionBranch.mk FalseBranch (Some (0x2000 + 4))
        ∈ [ InstructionBranch.mk TrueBranch (Some 0x1ff0);
            InstructionBranch.mk FalseBranch (Some 0x2004) ]
      <-> Instruction.size Samples.branch_instr = 4).
Proof.
  apply (fallthrough_matches_length_iff SpecDecoder.decode RISCV.self Samples.branch
           0x2000 Samples.branch_instr
           (InstructionInfo.mk 4
              [ InstructionBranch.mk TrueBranch (Some 0x1ff0);
                InstructionBranch.mk FalseBranch (Some 0x2004) ])).
  - vm_compute. reflexivity.
  - compute_done.
  - vm_compute. reflexivity.
Defined.

Lemma kinds_tell_category_witness :
  let result := InstructionInfo.mk 4 [ InstructionBranch.mk FunctionReturn None ] in
  (FunctionReturn ∈ kinds result <-> "ret" = "ret")
  /\ (TrueBranch ∈ kinds result <-> "ret" ∈ branch_ins)
  /\ (FalseBranch ∈ kinds result <-> "ret" ∈ branch_ins)
  /\ (CallDestination ∈ kinds result <-> "ret" ∈ direct_call_ins)
  /\ (UnresolvedBranch ∈ kinds result <-> "ret" ∈ indirect_call_ins).
Proof.
  apply (kinds_tell_category SpecDecoder.decode RISCV64.self Samples.ret 0x2000
           Samples.ret_instr
           (InstructionInfo.mk 4 [ InstructionBranch.mk FunctionReturn None ])).
  - vm_compute. reflexivity.
  - vm_compute. reflexivity.
Defined.
